(** * StockMarketFuzzyLogic: the three rule blocks of
      [fuzzy_logic/stock_market_fuzzy_logic.py] and the script [fuzzy_logic/main.py]

    The class stores six technical indicators, derives the normalised bid-ask
    spread and the double-crossover value in its constructor, and classifies
    them with three chained rule blocks.  Every branch is a crisp threshold
    comparison.

    Modelling choices.
    - The Python code is duck-typed over its numbers.  The operations it
      applies to them (subtraction, true division, [>], [<], [>=], numeric
      literals) form the class [Number], with one instance per kind of
      argument: [Binary64.float_Number] for Python [float] (IEEE-754
      doubles), [Q_Number] for [fractions.Fraction] (exact rationals), and
      [int_or_float_Number] for [int] arguments, alone or mixed with floats
      (the quotient of two ints is a double).
    - A numeric literal written with a fractional part is a Python [float]:
      its value is the double nearest to the decimal, also when it is
      compared with a [Fraction] or an [int].  So the threshold [0.015] of
      [block1] is the double 0x1.eb851eb851eb8p-7, slightly below 3/200.
    - True division raises [ZeroDivisionError] on a zero divisor, and
      [OverflowError] when an [int] operand or an [int] quotient is too large
      for a double: operations return a [result].
    - Methods receive [self] and could assign to its attributes: they are
      state-passing functions [method A], returning the value and the object
      they leave behind.
    - Category labels are Python strings compared with [==], so they are
      [string]s here; a method body that ends without [return] yields Python's
      [None], so [block3] returns an [option string]. *)

From Stdlib Require Import QArith Lqa String List Bool.
From Stdlib Require Import PrimFloat Uint63.
From Stdlib Require Import SpecFloat FloatOps FloatAxioms.
Import ListNotations.

Local Open Scope string_scope.

(** ** Exceptions *)

Inductive exn : Type :=
| ZeroDivisionError
| OverflowError.

Inductive result (A : Type) : Type :=
| Ok (a : A)
| Raise (e : exn).

Arguments Ok {A} a.
Arguments Raise {A} e.

Definition bind_result {A B : Type} (r : result A) (k : A -> result B) : result B :=
  match r with
  | Ok a => k a
  | Raise e => Raise e
  end.

(** ** Numbers *)

Class Number (T : Type) : Type := {
  lit : Q -> T;                  (* the value of a numeric literal *)
  sub : T -> T -> result T;      (* x - y *)
  truediv : T -> T -> result T;  (* x / y *)
  gt : T -> T -> bool;           (* x > y *)
  lt : T -> T -> bool;           (* x < y *)
  ge : T -> T -> bool            (* x >= y *)
}.

Declare Scope py_scope.
Delimit Scope py_scope with py.
Infix ">?" := gt (at level 70, no associativity) : py_scope.
Infix "<?" := lt (at level 70, no associativity) : py_scope.
Infix ">=?" := ge (at level 70, no associativity) : py_scope.

(** A literal is an [int] literal when it is written without a fractional
    part (70, 1), a [float] literal otherwise (0.015, 131.78). *)
Definition int_literal (q : Q) : bool := (Qden q =? 1)%positive.

(** ** Python [float]: IEEE-754 binary64 *)

Module Binary64.

Definition of_Z (z : Z) : float :=
  match z with
  | Z0 => PrimFloat.zero
  | Zpos _ => PrimFloat.of_uint63 (Uint63.of_Z z)
  | Zneg p => PrimFloat.opp (PrimFloat.of_uint63 (Uint63.of_Z (Zpos p)))
  end.

(** A decimal literal denotes the double nearest to it: numerator and
    denominator below 2^53 convert exactly and the division rounds once. *)
Definition of_literal (q : Q) : float :=
  PrimFloat.div (of_Z (Qnum q)) (of_Z (Zpos (Qden q))).

(** The exact value of a finite double, mantissa times a power of two
    (0 for the infinities and NaN, which have none). *)
Definition value (f : float) : Q :=
  match Prim2SF f with
  | S754_finite s m e =>
      let n := if s then Zneg m else Zpos m in
      match e with
      | Z0 => n # 1
      | Zpos p => (n * 2 ^ Zpos p) # 1
      | Zneg p => n # (2 ^ p)
      end
  | _ => 0
  end.

(** A rounded result that is too large for a double raises. *)
Definition finite (s : spec_float) : result float :=
  match s with
  | S754_infinity _ => Raise OverflowError
  | _ => Ok (SF2Prim s)
  end.

(** [float(z)] for an [int]: the nearest double, ties to even. *)
Definition of_int (z : Z) : result float :=
  finite (binary_normalize prec emax z 0 false).

(** [a / b] for two [int]s: the double nearest to the exact quotient, ties to
    even; a zero quotient takes the sign of the operands. *)
Definition int_truediv (a b : Z) : result float :=
  if (b =? 0)%Z then Raise ZeroDivisionError
  else
    let negate := xorb (a <? 0)%Z (b <? 0)%Z in
    match a with
    | Z0 => Ok (if negate then PrimFloat.neg_zero else PrimFloat.zero)
    | _ =>
      let '(mz, ez, lz) := SFdiv_core_binary prec emax (Z.abs a) 0 (Z.abs b) 0 in
      finite (binary_round_aux prec emax negate mz ez lz)
    end.

(** [x / y] for two [float]s. *)
Definition float_truediv (x y : float) : result float :=
  if PrimFloat.eqb y PrimFloat.zero then Raise ZeroDivisionError
  else Ok (PrimFloat.div x y).

#[global] Instance float_Number : Number float := {
  lit := of_literal;
  sub x y := Ok (PrimFloat.sub x y);
  truediv := float_truediv;
  gt x y := PrimFloat.ltb y x;
  lt x y := PrimFloat.ltb x y;
  ge x y := PrimFloat.leb y x
}.

End Binary64.


(** ** [fractions.Fraction]: exact rational arithmetic

    Comparing a [Fraction] with a [float] literal compares it with the exact
    value of that double. *)
#[global] Instance Q_Number : Number Q := {
  lit q := if int_literal q then q else Binary64.value (Binary64.of_literal q);
  sub x y := Ok (x - y)%Q;
  truediv x y := if Qeq_bool y 0 then Raise ZeroDivisionError else Ok (x / y)%Q;
  gt x y := negb (Qle_bool x y);
  lt x y := negb (Qle_bool y x);
  ge x y := Qle_bool y x
}.

(** ** [int] arguments, alone or mixed with [float]s *)

Inductive int_or_float : Type :=
| PyInt (z : Z)
| PyFloat (f : float).

(** An [int] operand of a mixed operation is converted to a double first. *)
Definition to_float (x : int_or_float) : result float :=
  match x with
  | PyInt z => Binary64.of_int z
  | PyFloat f => Ok f
  end.

(** Python compares an [int] with a [float] exactly; a NaN compares with
    nothing. *)
Definition compare_int_float (z : Z) (f : float) : option comparison :=
  match Prim2SF f with
  | S754_nan => None
  | S754_infinity s => Some (if s then Gt else Lt)
  | _ => Some (inject_Z z ?= Binary64.value f)%Q
  end.

Definition is_cmp (c : comparison) (o : option comparison) : bool :=
  match o, c with
  | Some Eq, Eq | Some Lt, Lt | Some Gt, Gt => true
  | _, _ => false
  end.

#[global] Instance int_or_float_Number : Number int_or_float := {
  lit q := if int_literal q then PyInt (Qnum q)
           else PyFloat (Binary64.of_literal q);
  sub x y :=
    match x, y with
    | PyInt a, PyInt b => Ok (PyInt (a - b))
    | _, _ =>
      bind_result (to_float x) (fun a =>
      bind_result (to_float y) (fun b =>
      Ok (PyFloat (PrimFloat.sub a b))))
    end;
  truediv x y :=
    match x, y with
    | PyInt a, PyInt b =>
      bind_result (Binary64.int_truediv a b) (fun f => Ok (PyFloat f))
    | _, _ =>
      bind_result (to_float x) (fun a =>
      bind_result (to_float y) (fun b =>
      bind_result (Binary64.float_truediv a b) (fun f => Ok (PyFloat f))))
    end;
  gt x y :=
    match x, y with
    | PyInt a, PyInt b => (b <? a)%Z
    | PyFloat a, PyFloat b => PrimFloat.ltb b a
    | PyInt a, PyFloat b => is_cmp Gt (compare_int_float a b)
    | PyFloat a, PyInt b => is_cmp Lt (compare_int_float b a)
    end;
  lt x y :=
    match x, y with
    | PyInt a, PyInt b => (a <? b)%Z
    | PyFloat a, PyFloat b => PrimFloat.ltb a b
    | PyInt a, PyFloat b => is_cmp Lt (compare_int_float a b)
    | PyFloat a, PyInt b => is_cmp Gt (compare_int_float b a)
    end;
  ge x y :=
    match x, y with
    | PyInt a, PyInt b => (b <=? a)%Z
    | PyFloat a, PyFloat b => PrimFloat.leb b a
    | PyInt a, PyFloat b =>
      is_cmp Gt (compare_int_float a b) || is_cmp Eq (compare_int_float a b)
    | PyFloat a, PyInt b =>
      is_cmp Lt (compare_int_float b a) || is_cmp Eq (compare_int_float b a)
    end
}.

(** ** The object *)

Record StockMarketFuzzyLogic (T : Type) : Type := {
  ma_s : T;
  ma_l : T;
  rsi : T;
  beta_stock : T;
  bid_price : T;
  ask_price : T;
  bid_ask_spread : T;
  dcm : T
}.

Arguments ma_s {T} _.
Arguments ma_l {T} _.
Arguments rsi {T} _.
Arguments beta_stock {T} _.
Arguments bid_price {T} _.
Arguments ask_price {T} _.
Arguments bid_ask_spread {T} _.
Arguments dcm {T} _.

(** ** Methods as state-passing functions *)

Definition method (T A : Type) : Type :=
  StockMarketFuzzyLogic T -> A * StockMarketFuzzyLogic T.

Definition ret {T A : Type} (a : A) : method T A :=
  fun self => (a, self).

Definition bind {T A B : Type} (m : method T A) (k : A -> method T B) : method T B :=
  fun self => let (a, self') := m self in k a self'.

Definition getattr {T A : Type} (field : StockMarketFuzzyLogic T -> A) : method T A :=
  fun self => (field self, self).

Notation "x <- m ;; k" := (bind m (fun x => k))
  (at level 100, m at next level, right associativity) : py_scope.

Section Class.

Context {T : Type} `{Number T}.

Local Open Scope py_scope.

(** [__init__]: the six assignments of the arguments, then the two derived
    attributes, in the order of the source.  An exception of the arithmetic
    leaves no object. *)
Definition __init__ (ma_s ma_l rsi beta_stock bid_price ask_price : T)
  : result (StockMarketFuzzyLogic T) :=
  bind_result (sub ask_price bid_price) (fun difference =>
  bind_result (truediv difference ask_price) (fun bid_ask_spread =>
  bind_result (sub ma_s ma_l) (fun dcm =>
  Ok {| ma_s := ma_s; ma_l := ma_l; rsi := rsi; beta_stock := beta_stock;
        bid_price := bid_price; ask_price := ask_price;
        bid_ask_spread := bid_ask_spread; dcm := dcm |}))).

(** Validity of strategy ([beta_stock] is x1, [bid_ask_spread] is x2). *)
Definition block1 : method T string :=
  x1 <- getattr beta_stock ;;
  if x1 >? lit 1 then
    x2 <- getattr bid_ask_spread ;;
    ret (if x2 >? lit 0.015 then "slight" else "very")
  else if x1 <? lit 1 then
    x2 <- getattr bid_ask_spread ;;
    ret (if x2 >? lit 0.015 then "not" else "slight")
  else
    ret "slight".

(** Strength of signals ([dcm] is x3, [rsi] is x4). *)
Definition block2 : method T string :=
  x4 <- getattr rsi ;;
  if x4 >? lit 70 then
    x3 <- getattr dcm ;;
    ret (if x3 <? lit 1 then "neutral" else "average buy")
  else if x4 >? lit 50 then
    x3 <- getattr dcm ;;
    ret (if x3 <? lit 1 then "neutral" else "strong buy")
  else if x4 >=? lit 30 then
    x3 <- getattr dcm ;;
    ret (if x3 <? lit 1 then "strong sell" else "neutral")
  else
    x3 <- getattr dcm ;;
    ret (if x3 <? lit 1 then "average sell" else "neutral").

(** The nested conditional of [block3] on its two local variables.  Falling
    off the end of the conditional is Python's implicit [return None]. *)
Definition block3_rules (validity_of_strategy strength_of_signals : string)
  : option string :=
  if validity_of_strategy =? "slight" then
    if strength_of_signals =? "average buy" then Some "low confidence buy"
    else if strength_of_signals =? "strong buy" then Some "moderate confidence buy"
    else if strength_of_signals =? "neutral" then Some "no confidence trade"
    else if strength_of_signals =? "strong sell" then Some "moderate confidence sell"
    else if strength_of_signals =? "average sell" then Some "low confidence sell"
    else None
  else if validity_of_strategy =? "very" then
    if strength_of_signals =? "average buy" then Some "moderate confidence buy"
    else if strength_of_signals =? "strong buy" then Some "high confidence buy"
    else if strength_of_signals =? "neutral" then Some "no confidence trade"
    else if strength_of_signals =? "strong sell" then Some "high confidence sell"
    else if strength_of_signals =? "average sell" then Some "moderate confidence sell"
    else None
  else if validity_of_strategy =? "not" then Some "no confidence trade"
  else None.

(** Confidence and trading decision. *)
Definition block3 : method T (option string) :=
  validity_of_strategy <- block1 ;;
  strength_of_signals <- block2 ;;
  ret (block3_rules validity_of_strategy strength_of_signals).

End Class.

(** ** The script [main.py] *)

Module main.
Section Script.

Context {T : Type} `{Number T}.

Definition beta : T := lit 1.28.
Definition ask : T := lit 131.78.
Definition bid : T := lit 131.75.
Definition mat_50 : T := lit 127.64.
Definition mat_200 : T := lit 107.17.
Definition rsi : T := lit 50.64.

Definition a : result (StockMarketFuzzyLogic T) :=
  __init__ mat_50 mat_200 rsi beta bid ask.

(** The argument of [print]: [a.block3()], or the exception of the
    constructor. *)
Definition printed : result (option string) :=
  bind_result a (fun a => Ok (fst (block3 a))).

End Script.
End main.

(** ** Vocabulary of the three rule blocks *)

Definition validities : list string := ["very"; "slight"; "not"].

Definition strengths : list string :=
  ["strong buy"; "average buy"; "neutral"; "strong sell"; "average sell"].

Definition decisions : list string :=
  ["high confidence buy"; "moderate confidence buy"; "low confidence buy";
   "no confidence trade";
   "high confidence sell"; "moderate confidence sell"; "low confidence sell"].

(** The decisions that recommend a purchase, and those that recommend a sale. *)
Definition buys : list string :=
  ["high confidence buy"; "moderate confidence buy"; "low confidence buy"].

Definition sells : list string :=
  ["high confidence sell"; "moderate confidence sell"; "low confidence sell"].

(** A decision is reachable when [block3] returns it on a record that
    [__init__] constructs from six inputs with a non-zero ask price. *)
Definition reachable (decision : string) : Prop :=
  exists ma_s ma_l rsi beta_stock bid_price ask_price : Q,
    (~ ask_price == 0)%Q /\
    exists self,
      __init__ ma_s ma_l rsi beta_stock bid_price ask_price = Ok self /\
      fst (block3 self) = Some decision.

(** The value of the literal [0.015] of [block1]: the double
    0x1.eb851eb851eb8p-7, that is 0x1eb851eb851eb8 / 2^59. *)
Definition spread_threshold : Q := 8646911284551352 # 576460752303423488.

(** A record with the given values of the four attributes the rule blocks
    read, for concrete instances (ask price 1, long average 0). *)
Definition record_with (beta_stock bid_ask_spread dcm rsi : Q)
  : StockMarketFuzzyLogic Q :=
  {| ma_s := dcm; ma_l := 0; rsi := rsi; beta_stock := beta_stock;
     bid_price := 1 - bid_ask_spread; ask_price := 1;
     bid_ask_spread := bid_ask_spread; dcm := dcm |}.

(** * Properties *)

Local Open Scope Q_scope.

(** ** Comparisons of [Q_Number] *)

Lemma gtP (x y : Q) : reflect (y < x) (gt x y).
Proof.
  cbn. destruct (Qle_bool x y) eqn:E; constructor.
  - apply Qle_bool_iff in E. now apply Qle_not_lt.
  - apply Qnot_le_lt. intro L. apply Qle_bool_iff in L. congruence.
Qed.

Lemma ltP (x y : Q) : reflect (x < y) (lt x y).
Proof. exact (gtP y x). Qed.

Lemma geP (x y : Q) : reflect (y <= x) (ge x y).
Proof.
  cbn. destruct (Qle_bool y x) eqn:E; constructor.
  - now apply Qle_bool_iff.
  - intro L. apply Qle_bool_iff in L. congruence.
Qed.

Lemma truediv_Q (x y : Q) :
  truediv x y = if Qeq_bool y 0 then Raise ZeroDivisionError else Ok (x / y).
Proof. reflexivity. Qed.

(** ** Literals *)

Lemma lit_int_Q (z : Z) : lit (z # 1) = z # 1.
Proof. reflexivity. Qed.

Lemma lit_spread_threshold : lit 0.015 = spread_threshold.
Proof. vm_compute. reflexivity. Qed.

(** The double nearest to 0.015 lies below it, by 1/1801439850948198400. *)
Lemma spread_threshold_value :
  spread_threshold == 0.015 - (1 # 1801439850948198400) /\
  spread_threshold < 0.015.
Proof. split; [reflexivity | reflexivity]. Qed.

#[warnings="-inexact-float"]
Lemma spread_threshold_is_the_double :
  Binary64.value 0.015%float = spread_threshold /\
  Binary64.of_literal 0.015 = 0.015%float.
Proof. split; vm_compute; reflexivity. Qed.

(** Case analysis on every comparison a rule block performs on [self]. *)
Ltac by_thresholds :=
  repeat match goal with
  | |- context [gt ?x ?y] => destruct (gtP x y)
  | |- context [lt ?x ?y] => destruct (ltP x y)
  | |- context [ge ?x ?y] => destruct (geP x y)
  end.

Ltac run_block :=
  unfold block1, block2, bind, getattr, ret;
  rewrite ?lit_spread_threshold, ?lit_int_Q; cbn [fst snd].

(** ** The sample run *)

(** C1: the sample invocation of [main.py] (shortMA=127.64, longMA=107.17,
    oscillator=50.64, beta=1.28, bidPrice=131.75, askPrice=131.78) constructs
    the record and [block3] on it returns exactly "high confidence buy". *)
Theorem main_prints_high_confidence_buy :
  main.printed (T := Q) = Ok (Some "high confidence buy").
Proof. vm_compute. reflexivity. Qed.

(** The same run on doubles, as the interpreter executes it. *)
Lemma main_prints_high_confidence_buy_binary64 :
  main.printed (T := float) = Ok (Some "high confidence buy").
Proof. vm_compute. reflexivity. Qed.

(** The stages of the sample run: the spread ratio is about 0.0002277, so
    Stage 1 is "very"; the crossover delta is about 20.47 and the oscillator
    lies between 50 and 70, so Stage 2 is "strong buy". *)
Lemma main_stages :
  exists a : StockMarketFuzzyLogic Q,
    main.a = Ok a /\
    0.0002276 < bid_ask_spread a < 0.0002278 /\
    20.4699 < dcm a < 20.4701 /\
    50 < rsi a <= 70 /\
    fst (block1 a) = "very"%string /\ fst (block2 a) = "strong buy"%string /\
    block3_rules "very" "strong buy" = Some "high confidence buy"%string.
Proof.
  eexists. split; [vm_compute; reflexivity|].
  cbn [bid_ask_spread dcm rsi].
  repeat match goal with |- _ /\ _ => split end;
    first [reflexivity | vm_compute; discriminate].
Qed.

(** Decimal literals convert to the double the interpreter reads. *)
#[warnings="-inexact-float"]
Example of_literal_thresholds :
  map Binary64.of_literal [1; 0.015; 70; 50; 30; 131.78]
  = [1; 0.015; 70; 50; 30; 131.78]%float.
Proof. vm_compute. reflexivity. Qed.

(** ** Stage 1: validity of strategy *)

Lemma block1_val (self : StockMarketFuzzyLogic Q) :
  fst (block1 self) =
    if gt (beta_stock self) 1 then
      if gt (bid_ask_spread self) spread_threshold
      then "slight"%string else "very"%string
    else if lt (beta_stock self) 1 then
      if gt (bid_ask_spread self) spread_threshold
      then "not"%string else "slight"%string
    else "slight"%string.
Proof.
  run_block.
  destruct (gt (beta_stock self) 1); [reflexivity|].
  destruct (lt (beta_stock self) 1); reflexivity.
Qed.

(** ** Stage 2: strength of signals *)

Lemma block2_val (self : StockMarketFuzzyLogic Q) :
  fst (block2 self) =
    if gt (rsi self) 70 then
      if lt (dcm self) 1 then "neutral"%string else "average buy"%string
    else if gt (rsi self) 50 then
      if lt (dcm self) 1 then "neutral"%string else "strong buy"%string
    else if ge (rsi self) 30 then
      if lt (dcm self) 1 then "strong sell"%string else "neutral"%string
    else
      if lt (dcm self) 1 then "average sell"%string else "neutral"%string.
Proof.
  run_block.
  destruct (gt (rsi self) 70); [reflexivity|].
  destruct (gt (rsi self) 50); [reflexivity|].
  destruct (ge (rsi self) 30); reflexivity.
Qed.

(** C2: for every oscillator (rsi) and crossover delta (dcm), Stage 2 tests
    rsi > 70, then rsi > 50, then rsi >= 30, and last the remaining case:
    above 70 it returns "neutral" if dcm < 1 and "average buy" otherwise;
    above 50 (up to 70) "neutral" / "strong buy"; from 30 (up to 50)
    "strong sell" / "neutral"; below 30 "average sell" / "neutral".
    So rsi exactly 70 is in the > 50 band, rsi exactly 50 in the >= 30 band,
    and rsi = 30 with dcm = 0.5 gives "strong sell". *)
Theorem block2_table (self : StockMarketFuzzyLogic Q) :
  (70 < rsi self -> dcm self < 1 -> fst (block2 self) = "neutral"%string) /\
  (70 < rsi self -> 1 <= dcm self -> fst (block2 self) = "average buy"%string) /\
  (50 < rsi self <= 70 -> dcm self < 1 -> fst (block2 self) = "neutral"%string) /\
  (50 < rsi self <= 70 -> 1 <= dcm self ->
     fst (block2 self) = "strong buy"%string) /\
  (30 <= rsi self <= 50 -> dcm self < 1 ->
     fst (block2 self) = "strong sell"%string) /\
  (30 <= rsi self <= 50 -> 1 <= dcm self ->
     fst (block2 self) = "neutral"%string) /\
  (rsi self < 30 -> dcm self < 1 -> fst (block2 self) = "average sell"%string) /\
  (rsi self < 30 -> 1 <= dcm self -> fst (block2 self) = "neutral"%string) /\
  (rsi self == 70 ->
     fst (block2 self) =
       if lt (dcm self) 1 then "neutral"%string else "strong buy"%string) /\
  (rsi self == 50 ->
     fst (block2 self) =
       if lt (dcm self) 1 then "strong sell"%string else "neutral"%string) /\
  (rsi self == 30 -> dcm self == 0.5 ->
     fst (block2 self) = "strong sell"%string).
Proof.
  rewrite block2_val.
  repeat split; intros; by_thresholds; first [reflexivity | lra].
Qed.

(** ** Stage 3: confidence and trading decision *)

(** C4: on every pair of a validity tag and a strength tag the lookup of
    Stage 3 returns a value (never [None]), the one of the table; for
    validity "not" it returns "no confidence trade" whatever the strength. *)
Theorem block3_rules_table :
  block3_rules "very" "strong buy" = Some "high confidence buy"%string /\
  block3_rules "very" "average buy" = Some "moderate confidence buy"%string /\
  block3_rules "very" "neutral" = Some "no confidence trade"%string /\
  block3_rules "very" "strong sell" = Some "high confidence sell"%string /\
  block3_rules "very" "average sell" = Some "moderate confidence sell"%string /\
  block3_rules "slight" "strong buy" = Some "moderate confidence buy"%string /\
  block3_rules "slight" "average buy" = Some "low confidence buy"%string /\
  block3_rules "slight" "neutral" = Some "no confidence trade"%string /\
  block3_rules "slight" "strong sell" = Some "moderate confidence sell"%string /\
  block3_rules "slight" "average sell" = Some "low confidence sell"%string /\
  (forall strength : string,
     block3_rules "not" strength = Some "no confidence trade"%string) /\
  Forall (fun validity =>
    Forall (fun strength => block3_rules validity strength <> None) strengths)
    validities.
Proof.
  repeat split; try reflexivity.
  repeat constructor; discriminate.
Qed.

(** ** The rule blocks only read [self] *)

Section Purity.

Context {T : Type} `{Number T}.

Ltac by_guards :=
  repeat match goal with
  | |- context [if ?b then _ else _] => destruct b; cbn
  end.

Lemma block1_pure (self : StockMarketFuzzyLogic T) : snd (block1 self) = self.
Proof. unfold block1, bind, getattr, ret. by_guards; reflexivity. Qed.

Lemma block2_pure (self : StockMarketFuzzyLogic T) : snd (block2 self) = self.
Proof. unfold block2, bind, getattr, ret. by_guards; reflexivity. Qed.

Lemma block3_run (self : StockMarketFuzzyLogic T) :
  block3 self = (block3_rules (fst (block1 self)) (fst (block2 self)), self).
Proof.
  unfold block3, bind, ret.
  pose proof (block1_pure self) as P1. destruct (block1 self) as [v s1].
  cbn in P1. subst s1.
  pose proof (block2_pure self) as P2. destruct (block2 self) as [s s2].
  cbn in P2. subst s2. reflexivity.
Qed.

Lemma block3_pure (self : StockMarketFuzzyLogic T) : snd (block3 self) = self.
Proof. now rewrite block3_run. Qed.

Lemma block1_range (self : StockMarketFuzzyLogic T) :
  In (fst (block1 self)) validities.
Proof. unfold block1, bind, getattr, ret, validities. by_guards; auto. Qed.

Lemma block2_range (self : StockMarketFuzzyLogic T) :
  In (fst (block2 self)) strengths.
Proof.
  unfold block2, bind, getattr, ret, strengths. by_guards; auto 6.
Qed.

(** C7: on every record, no evaluation of [block1], [block2] or [block3]
    changes any of the eight fields (the object left behind is the one
    received), and evaluating a block again returns the same result: the
    stages are deterministic functions of the record with no hidden state. *)
Theorem blocks_pure_and_repeatable (self : StockMarketFuzzyLogic T) :
  (snd (block1 self) = self /\ snd (block2 self) = self /\
   snd (block3 self) = self) /\
  (fst (block1 (snd (block1 self))) = fst (block1 self) /\
   fst (block2 (snd (block2 self))) = fst (block2 self) /\
   fst (block3 (snd (block3 self))) = fst (block3 self)) /\
  (let self' := snd (block3 self) in
   ma_s self' = ma_s self /\ ma_l self' = ma_l self /\ rsi self' = rsi self /\
   beta_stock self' = beta_stock self /\ bid_price self' = bid_price self /\
   ask_price self' = ask_price self /\
   bid_ask_spread self' = bid_ask_spread self /\ dcm self' = dcm self).
Proof.
  rewrite block1_pure, block2_pure, block3_pure. cbv zeta.
  repeat split; reflexivity.
Qed.

End Purity.

Lemma block3_rules_range (validity strength : string) :
  In validity validities -> In strength strengths ->
  exists decision, block3_rules validity strength = Some decision /\
                   In decision decisions.
Proof.
  unfold validities, strengths, decisions. cbn [In].
  intros V S.
  repeat match goal with
  | D : _ \/ _ |- _ => destruct D as [<- | D]
  | F : False |- _ => destruct F
  end; eexists; (split; [reflexivity | cbn; tauto]).
Qed.

(** ** Construction *)

Lemma init_Q (ma_s ma_l rsi beta_stock bid_price ask_price : Q) :
  __init__ ma_s ma_l rsi beta_stock bid_price ask_price =
    if Qeq_bool ask_price 0 then Raise ZeroDivisionError
    else Ok {| ma_s := ma_s; ma_l := ma_l; rsi := rsi; beta_stock := beta_stock;
               bid_price := bid_price; ask_price := ask_price;
               bid_ask_spread := (ask_price - bid_price) / ask_price;
               dcm := ma_s - ma_l |}.
Proof.
  unfold __init__. cbn [sub Q_Number bind_result]. rewrite truediv_Q.
  destruct (Qeq_bool ask_price 0); reflexivity.
Qed.

Lemma Qeq_bool_false (x y : Q) : ~ x == y -> Qeq_bool x y = false.
Proof.
  intro N. destruct (Qeq_bool x y) eqn:E; [|reflexivity].
  apply Qeq_bool_iff in E. contradiction.
Qed.


(** ** Which inputs the decision depends on *)

Lemma gt_compat (x x' y : Q) : x == x' -> gt x y = gt x' y.
Proof. intro E. cbn. now rewrite E. Qed.

Lemma lt_compat (x x' y : Q) : x == x' -> lt x y = lt x' y.
Proof. intro E. cbn. now rewrite E. Qed.

Lemma ge_compat (x x' y : Q) : x == x' -> ge x y = ge x' y.
Proof. intro E. cbn. now rewrite E. Qed.

Lemma block3_quadruple (a b : StockMarketFuzzyLogic Q) :
  beta_stock a == beta_stock b -> bid_ask_spread a == bid_ask_spread b ->
  dcm a == dcm b -> rsi a == rsi b ->
  fst (block3 a) = fst (block3 b).
Proof.
  intros Hbeta Hspread Hdcm Hrsi.
  rewrite !block3_run. cbn [fst]. rewrite !block1_val, !block2_val.
  rewrite !(gt_compat _ _ _ Hbeta), !(lt_compat _ _ _ Hbeta),
    !(gt_compat _ _ _ Hspread), !(lt_compat _ _ _ Hdcm),
    !(gt_compat _ _ _ Hrsi), !(ge_compat _ _ _ Hrsi).
  reflexivity.
Qed.

(** C9: two records with equal (beta_stock, bid_ask_spread, dcm, rsi) get the
    same decision from [block3], whatever their moving averages and prices:
    for constructed records the decision depends on shortMA and longMA only
    through shortMA - longMA, and on bidPrice and askPrice only through
    (askPrice - bidPrice) / askPrice. *)
Theorem decision_noninterference :
  (forall a b : StockMarketFuzzyLogic Q,
     beta_stock a == beta_stock b -> bid_ask_spread a == bid_ask_spread b ->
     dcm a == dcm b -> rsi a == rsi b ->
     fst (block3 a) = fst (block3 b)) /\
  (forall ma_s1 ma_l1 rsi1 beta1 bid1 ask1 ma_s2 ma_l2 rsi2 beta2 bid2 ask2 a b,
     beta1 == beta2 -> rsi1 == rsi2 ->
     ma_s1 - ma_l1 == ma_s2 - ma_l2 ->
     (ask1 - bid1) / ask1 == (ask2 - bid2) / ask2 ->
     __init__ ma_s1 ma_l1 rsi1 beta1 bid1 ask1 = Ok a ->
     __init__ ma_s2 ma_l2 rsi2 beta2 bid2 ask2 = Ok b ->
     fst (block3 a) = fst (block3 b)).
Proof.
  split; [exact block3_quadruple|].
  intros ma_s1 ma_l1 rsi1 beta1 bid1 ask1 ma_s2 ma_l2 rsi2 beta2 bid2 ask2 a b
    Hb Hr Hd Hs Ia Ib.
  rewrite init_Q in Ia, Ib.
  destruct (Qeq_bool ask1 0); [discriminate|].
  destruct (Qeq_bool ask2 0); [discriminate|].
  injection Ia as <-. injection Ib as <-.
  apply block3_quadruple; cbn; first [assumption | reflexivity].
Qed.

(** ** Reachability of the decisions *)

Lemma reachable_by (ma_s ma_l rsi beta_stock bid_price ask_price : Q)
    (decision : string) :
  Qeq_bool ask_price 0 = false ->
  bind_result (__init__ ma_s ma_l rsi beta_stock bid_price ask_price)
    (fun self => Ok (fst (block3 self))) = Ok (Some decision) ->
  reachable decision.
Proof.
  intros N R. exists ma_s, ma_l, rsi, beta_stock, bid_price, ask_price.
  split; [intro Z; apply Qeq_bool_iff in Z; congruence|].
  destruct (__init__ _ _ _ _ _ _) as [self|]; [|discriminate].
  exists self. split; [reflexivity|]. now injection R.
Qed.

(** C10: each of the seven decision strings is returned by [block3] on the
    record constructed from some six inputs with askPrice != 0. *)
Theorem all_decisions_reachable :
  reachable "high confidence buy" /\
  reachable "moderate confidence buy" /\
  reachable "low confidence buy" /\
  reachable "no confidence trade" /\
  reachable "high confidence sell" /\
  reachable "moderate confidence sell" /\
  reachable "low confidence sell".
Proof.
  repeat split.
  - now apply (reachable_by 127.64 107.17 50.64 1.28 131.75 131.78).
  - now apply (reachable_by 3 1 80 1.5 99 100).
  - now apply (reachable_by 3 1 80 1.5 90 100).
  - now apply (reachable_by 1 1 80 1.5 99 100).
  - now apply (reachable_by 1 1 40 1.5 99 100).
  - now apply (reachable_by 1 1 20 1.5 99 100).
  - now apply (reachable_by 1 1 20 1.5 90 100).
Qed.

(** * Concrete instances *)

Ltac conjuncts := repeat match goal with |- _ /\ _ => split end.

(** Closed comparisons of rationals, decided by evaluation. *)
Ltac by_evaluation :=
  cbn [record_with rsi dcm beta_stock bid_ask_spread];
  first [ reflexivity
        | split; first [reflexivity | vm_compute; discriminate]
        | vm_compute; discriminate ].

(** Stage 2 on one record for each cell of its table and on the boundary
    readings 70, 50 and 30. *)
Lemma block2_table_witness :
  fst (block2 (record_with 1 0 0.5 80)) = "neutral"%string /\
  fst (block2 (record_with 1 0 1 80)) = "average buy"%string /\
  fst (block2 (record_with 1 0 0.5 70)) = "neutral"%string /\
  fst (block2 (record_with 1 0 20.47 50.64)) = "strong buy"%string /\
  fst (block2 (record_with 1 0 0.5 30)) = "strong sell"%string /\
  fst (block2 (record_with 1 0 2 50)) = "neutral"%string /\
  fst (block2 (record_with 1 0 0.5 29.9)) = "average sell"%string /\
  fst (block2 (record_with 1 0 1 0)) = "neutral"%string /\
  fst (block2 (record_with 1 0 2 70)) = "strong buy"%string /\
  fst (block2 (record_with 1 0 0 50)) = "strong sell"%string /\
  fst (block2 (record_with 1 0 (1 # 2) (60 # 2))) = "strong sell"%string.
Proof.
  conjuncts.
  - destruct (block2_table (record_with 1 0 0.5 80)) as (R & _).
    apply R; by_evaluation.
  - destruct (block2_table (record_with 1 0 1 80)) as (_ & R & _).
    apply R; by_evaluation.
  - destruct (block2_table (record_with 1 0 0.5 70)) as (_ & _ & R & _).
    apply R; by_evaluation.
  - destruct (block2_table (record_with 1 0 20.47 50.64))
      as (_ & _ & _ & R & _).
    apply R; by_evaluation.
  - destruct (block2_table (record_with 1 0 0.5 30))
      as (_ & _ & _ & _ & R & _).
    apply R; by_evaluation.
  - destruct (block2_table (record_with 1 0 2 50))
      as (_ & _ & _ & _ & _ & R & _).
    apply R; by_evaluation.
  - destruct (block2_table (record_with 1 0 0.5 29.9))
      as (_ & _ & _ & _ & _ & _ & R & _).
    apply R; by_evaluation.
  - destruct (block2_table (record_with 1 0 1 0))
      as (_ & _ & _ & _ & _ & _ & _ & R & _).
    apply R; by_evaluation.
  - destruct (block2_table (record_with 1 0 2 70))
      as (_ & _ & _ & _ & _ & _ & _ & _ & R & _).
    apply R; by_evaluation.
  - destruct (block2_table (record_with 1 0 0 50))
      as (_ & _ & _ & _ & _ & _ & _ & _ & _ & R & _).
    apply R; by_evaluation.
  - destruct (block2_table (record_with 1 0 (1 # 2) (60 # 2)))
      as (_ & _ & _ & _ & _ & _ & _ & _ & _ & _ & R).
    apply R; by_evaluation.
Defined.

(** Two records with different averages and prices and the same derived
    values: one decision. *)
Lemma decision_noninterference_witness :
  fst (block3 (record_with 1.5 0.01 2 80)) =
  fst (block3 {| ma_s := 12; ma_l := 10; rsi := 80; beta_stock := 3 # 2;
                 bid_price := 198; ask_price := 200;
                 bid_ask_spread := 2 # 200; dcm := 2 |}) /\
  (exists a b : StockMarketFuzzyLogic Q,
     __init__ 3 1 80 1.5 99 100 = Ok a /\ __init__ 12 10 80 1.5 198 200 = Ok b /\
     fst (block3 a) = fst (block3 b)).
Proof.
  destruct decision_noninterference as (Records & Constructed).
  split.
  - apply Records; reflexivity.
  - do 2 eexists. split; [reflexivity|]. split; [reflexivity|].
    apply (Constructed 3 1 80 1.5 99 100 12 10 80 1.5 198 200);
      reflexivity.
Defined.

(** * Further properties of the rule blocks *)

(** ** Direction of the decision *)

Lemma block3_val (self : StockMarketFuzzyLogic Q) :
  fst (block3 self) = block3_rules (fst (block1 self)) (fst (block2 self)).
Proof. now rewrite block3_run. Qed.

(** Unfold the three blocks on [self] and split on every threshold. *)
Ltac by_all_thresholds :=
  rewrite ?block3_val, ?block1_val, ?block2_val; by_thresholds; cbn.

(** X1: the decision follows the crossover signal.  With dcm < 1 (sell
    signal) [block3] returns "no confidence trade" or one of the sell
    decisions, never a buy; with dcm >= 1 it returns "no confidence trade" or
    one of the buy decisions, never a sell. *)
Theorem decision_follows_crossover (self : StockMarketFuzzyLogic Q) :
  (dcm self < 1 ->
   exists decision, fst (block3 self) = Some decision /\
                    In decision ("no confidence trade"%string :: sells)) /\
  (1 <= dcm self ->
   exists decision, fst (block3 self) = Some decision /\
                    In decision ("no confidence trade"%string :: buys)).
Proof.
  split; intro D; by_all_thresholds; try lra;
    (eexists; split; [reflexivity | cbn; tauto]).
Qed.

Lemma decision_follows_crossover_witness :
  (exists decision, fst (block3 (record_with 1.5 0.01 0.5 40)) = Some decision /\
                    In decision ("no confidence trade"%string :: sells)) /\
  (exists decision, fst (block3 (record_with 1.5 0.01 1 40)) = Some decision /\
                    In decision ("no confidence trade"%string :: buys)).
Proof.
  split.
  - destruct (decision_follows_crossover (record_with 1.5 0.01 0.5 40)) as (R & _).
    apply R. reflexivity.
  - destruct (decision_follows_crossover (record_with 1.5 0.01 1 40)) as (_ & R).
    apply R. vm_compute. discriminate.
Defined.

(** ** Which inputs give which decision *)

(** Decide an equivalence between a closed equality of decisions and a
    condition on the thresholds, in one case of [by_all_thresholds]. *)
Ltac decide_case :=
  split;
  [ intro; first [discriminate | lra]
  | intro; first [reflexivity | exfalso; lra] ].

(** X2: [block3] returns "no confidence trade" exactly when the strategy is
    not valid (beta < 1 and spread above the threshold, the double nearest to
    0.015) or the two signals disagree (oscillator above 50 with dcm < 1, or
    oscillator at most 50 with dcm >= 1). *)
Theorem no_confidence_trade_iff (self : StockMarketFuzzyLogic Q) :
  fst (block3 self) = Some "no confidence trade"%string <->
  (beta_stock self < 1 /\ spread_threshold < bid_ask_spread self) \/
  (50 < rsi self /\ dcm self < 1) \/
  (rsi self <= 50 /\ 1 <= dcm self).
Proof. by_all_thresholds; decide_case. Qed.

(** X3: the two high-confidence decisions need a volatile, liquid stock.
    "high confidence buy" is returned exactly when beta > 1, spread <= d,
    50 < rsi <= 70 and dcm >= 1; "high confidence sell" exactly when beta > 1,
    spread <= d, 30 <= rsi <= 50 and dcm < 1, where d is the double nearest
    to 0.015. *)
Theorem high_confidence_iff (self : StockMarketFuzzyLogic Q) :
  (fst (block3 self) = Some "high confidence buy"%string <->
   1 < beta_stock self /\ bid_ask_spread self <= spread_threshold /\
   50 < rsi self <= 70 /\ 1 <= dcm self) /\
  (fst (block3 self) = Some "high confidence sell"%string <->
   1 < beta_stock self /\ bid_ask_spread self <= spread_threshold /\
   30 <= rsi self <= 50 /\ dcm self < 1).
Proof. split; by_all_thresholds; decide_case. Qed.

(** X4: the two low-confidence decisions come from an average signal on a
    slightly valid strategy.  "low confidence buy" is returned exactly when
    rsi > 70, dcm >= 1 and the stock is neither volatile and liquid (beta > 1,
    spread <= d) nor calm and illiquid (beta < 1, spread > d); "low
    confidence sell" exactly when rsi < 30, dcm < 1 and the same condition on
    the stock, where d is the double nearest to 0.015. *)
Theorem low_confidence_iff (self : StockMarketFuzzyLogic Q) :
  (fst (block3 self) = Some "low confidence buy"%string <->
   70 < rsi self /\ 1 <= dcm self /\
   ~ (1 < beta_stock self /\ bid_ask_spread self <= spread_threshold) /\
   ~ (beta_stock self < 1 /\ spread_threshold < bid_ask_spread self)) /\
  (fst (block3 self) = Some "low confidence sell"%string <->
   rsi self < 30 /\ dcm self < 1 /\
   ~ (1 < beta_stock self /\ bid_ask_spread self <= spread_threshold) /\
   ~ (beta_stock self < 1 /\ spread_threshold < bid_ask_spread self)).
Proof. split; by_all_thresholds; decide_case. Qed.

(** X5: the moderate-confidence decisions arise in two ways: an average
    signal on a volatile, liquid stock (beta > 1, spread <= d), or a strong
    signal on a slightly valid one, where d is the double nearest to 0.015. *)
Theorem moderate_confidence_iff (self : StockMarketFuzzyLogic Q) :
  (fst (block3 self) = Some "moderate confidence buy"%string <->
   1 <= dcm self /\
   ((70 < rsi self /\
     1 < beta_stock self /\ bid_ask_spread self <= spread_threshold) \/
    (50 < rsi self <= 70 /\
     ~ (1 < beta_stock self /\ bid_ask_spread self <= spread_threshold) /\
     ~ (beta_stock self < 1 /\ spread_threshold < bid_ask_spread self)))) /\
  (fst (block3 self) = Some "moderate confidence sell"%string <->
   dcm self < 1 /\
   ((rsi self < 30 /\
     1 < beta_stock self /\ bid_ask_spread self <= spread_threshold) \/
    (30 <= rsi self <= 50 /\
     ~ (1 < beta_stock self /\ bid_ask_spread self <= spread_threshold) /\
     ~ (beta_stock self < 1 /\ spread_threshold < bid_ask_spread self)))).
Proof. split; by_all_thresholds; decide_case. Qed.

(** A closed conjunction of comparisons one of which evaluates to false. *)
Ltac refute_evaluation :=
  let L := fresh in let M := fresh in
  intros (L & M);
  first [ revert L; vm_compute; discriminate
        | revert M; vm_compute; intro M; exfalso; apply M; reflexivity
        | revert L; vm_compute; intro L; exfalso; apply L; reflexivity
        | revert M; vm_compute; discriminate ].

Lemma no_confidence_trade_iff_witness :
  fst (block3 (record_with 0.5 0.02 20.47 50.64)) = Some "no confidence trade"%string /\
  fst (block3 (record_with 1.28 0.01 0.5 80)) = Some "no confidence trade"%string /\
  fst (block3 (record_with 1.28 0.01 1 50)) = Some "no confidence trade"%string.
Proof.
  conjuncts.
  - apply (proj2 (no_confidence_trade_iff (record_with 0.5 0.02 20.47 50.64))).
    left. split; reflexivity.
  - apply (proj2 (no_confidence_trade_iff (record_with 1.28 0.01 0.5 80))).
    right. left. split; reflexivity.
  - apply (proj2 (no_confidence_trade_iff (record_with 1.28 0.01 1 50))).
    right. right. split; vm_compute; discriminate.
Defined.

Lemma high_confidence_iff_witness :
  fst (block3 (record_with 1.28 spread_threshold 1 70)) = Some "high confidence buy"%string /\
  fst (block3 (record_with 1.28 spread_threshold 0.5 30)) = Some "high confidence sell"%string.
Proof.
  split.
  - destruct (high_confidence_iff (record_with 1.28 spread_threshold 1 70)) as ((_ & R) & _).
    apply R. conjuncts; by_evaluation.
  - destruct (high_confidence_iff (record_with 1.28 spread_threshold 0.5 30)) as (_ & (_ & R)).
    apply R. conjuncts; by_evaluation.
Defined.

Lemma low_confidence_iff_witness :
  fst (block3 (record_with 1 0.5 1 70.1)) = Some "low confidence buy"%string /\
  fst (block3 (record_with 0.5 spread_threshold 0.5 29.9)) = Some "low confidence sell"%string.
Proof.
  split.
  - destruct (low_confidence_iff (record_with 1 0.5 1 70.1)) as ((_ & R) & _).
    apply R. conjuncts; try by_evaluation; refute_evaluation.
  - destruct (low_confidence_iff (record_with 0.5 spread_threshold 0.5 29.9)) as (_ & (_ & R)).
    apply R. conjuncts; try by_evaluation; refute_evaluation.
Defined.

Lemma moderate_confidence_iff_witness :
  fst (block3 (record_with 1.28 0.01 1 80)) = Some "moderate confidence buy"%string /\
  fst (block3 (record_with 1 0.01 0.5 50)) = Some "moderate confidence sell"%string.
Proof.
  split.
  - destruct (moderate_confidence_iff (record_with 1.28 0.01 1 80)) as ((_ & R) & _).
    apply R. split; [by_evaluation|]. left. conjuncts; by_evaluation.
  - destruct (moderate_confidence_iff (record_with 1 0.01 0.5 50)) as (_ & (_ & R)).
    apply R. split; [by_evaluation|]. right.
    conjuncts; try by_evaluation; refute_evaluation.
Defined.

(** ** Stage 1 and Stage 2 taken separately *)

(** X6: validity never drops when the stock is more volatile and more liquid.
    If record b has beta at least that of a and spread at most that of a,
    then "very" for a gives "very" for b, and "not" for b gives "not" for a. *)
Theorem validity_monotone (a b : StockMarketFuzzyLogic Q) :
  beta_stock a <= beta_stock b -> bid_ask_spread b <= bid_ask_spread a ->
  (fst (block1 a) = "very"%string -> fst (block1 b) = "very"%string) /\
  (fst (block1 b) = "not"%string -> fst (block1 a) = "not"%string).
Proof.
  intros Hbeta Hspread. rewrite !block1_val. by_thresholds; cbn;
    split; intro E; first [reflexivity | discriminate E | exfalso; lra].
Qed.

Lemma validity_monotone_witness :
  fst (block1 (record_with 1.5 0.01 0 50)) = "very"%string /\
  fst (block1 (record_with 0.5 0.02 0 50)) = "not"%string.
Proof.
  split.
  - apply (proj1 (validity_monotone
                    (record_with 1.28 0.014 0 50) (record_with 1.5 0.01 0 50)
                    ltac:(vm_compute; discriminate) ltac:(vm_compute; discriminate))).
    reflexivity.
  - apply (proj2 (validity_monotone
                    (record_with 0.5 0.02 0 50) (record_with 0.9 0.016 0 50)
                    ltac:(vm_compute; discriminate) ltac:(vm_compute; discriminate))).
    reflexivity.
Defined.

(** X7: the two first stages read disjoint attributes.  [block1] gives the
    same tag on two records with equal beta_stock and bid_ask_spread, whatever
    their rsi and dcm; [block2] gives the same tag on two records with equal
    rsi and dcm, whatever their beta_stock and bid_ask_spread. *)
Theorem stages_read_disjoint_attributes (a b : StockMarketFuzzyLogic Q) :
  (beta_stock a == beta_stock b -> bid_ask_spread a == bid_ask_spread b ->
   fst (block1 a) = fst (block1 b)) /\
  (rsi a == rsi b -> dcm a == dcm b -> fst (block2 a) = fst (block2 b)).
Proof.
  split.
  - intros Hbeta Hspread. rewrite !block1_val.
    now rewrite !(gt_compat _ _ _ Hbeta), !(lt_compat _ _ _ Hbeta),
      !(gt_compat _ _ _ Hspread).
  - intros Hrsi Hdcm. rewrite !block2_val.
    now rewrite !(gt_compat _ _ _ Hrsi), !(ge_compat _ _ _ Hrsi),
      !(lt_compat _ _ _ Hdcm).
Qed.

Lemma stages_read_disjoint_attributes_witness :
  fst (block1 (record_with 1.28 0.01 0.5 20)) =
  fst (block1 (record_with (128 # 100) (1 # 100) 20.47 80)) /\
  fst (block2 (record_with 1.28 0.01 0.5 20)) =
  fst (block2 (record_with 0.5 0.02 (1 # 2) (40 # 2))).
Proof.
  split.
  - apply (proj1 (stages_read_disjoint_attributes
                    (record_with 1.28 0.01 0.5 20)
                    (record_with (128 # 100) (1 # 100) 20.47 80))); reflexivity.
  - apply (proj2 (stages_read_disjoint_attributes
                    (record_with 1.28 0.01 0.5 20)
                    (record_with 0.5 0.02 (1 # 2) (40 # 2)))); reflexivity.
Defined.

(** ** The fall-through of Stage 3 *)

(** X8: the nested conditional of [block3] falls through (Python's [None])
    exactly when the validity is none of "slight", "very", "not", or the
    validity is "slight" or "very" and the strength is none of the five
    strength tags.  Tags are compared exactly, so another spelling of a tag
    falls through. *)
Theorem block3_rules_None_iff (validity strength : string) :
  block3_rules validity strength = None <->
  ~ In validity validities \/
  (validity <> "not"%string /\ ~ In strength strengths).
Proof.
  unfold block3_rules, validities, strengths. cbn [In].
  repeat match goal with
  | |- context [String.eqb ?x ?y] => destruct (String.eqb_spec x y); try subst x
  end;
  (split;
   [ intro E; first
       [ discriminate E
       | left; solve [intuition congruence]
       | right; split; [discriminate | solve [intuition congruence]] ]
   | intros [N | [N M]]; first
       [ reflexivity | exfalso; solve [intuition congruence] ] ]).
Qed.

Lemma block3_rules_None_iff_witness :
  block3_rules "Very" "strong buy" = None /\
  block3_rules "very" "Average Sell" = None.
Proof.
  split.
  - apply (proj2 (block3_rules_None_iff "Very" "strong buy")).
    left. cbn. intros [E | [E | [E | []]]]; discriminate E.
  - apply (proj2 (block3_rules_None_iff "very" "Average Sell")).
    right. split; [discriminate|].
    cbn. intros [E | [E | [E | [E | [E | []]]]]]; discriminate E.
Defined.

(** ** Properties that hold for every kind of number *)

Section AnyNumber.

Context {T : Type} `{Number T}.

(** X9: on every record whose fields are numbers that the three comparisons
    answer with a bool ([int], [float] with NaN and infinities included,
    [Fraction]: every instance of [Number]), whether or not [__init__] built
    it, [block3] returns one of the seven decision strings and never falls
    through to [None]. *)
Theorem block3_always_decides (self : StockMarketFuzzyLogic T) :
  exists decision, fst (block3 self) = Some decision /\ In decision decisions.
Proof.
  rewrite block3_run. cbn [fst].
  apply block3_rules_range; [apply block1_range | apply block2_range].
Qed.

End AnyNumber.

(** ** Prices and averages *)

Local Open Scope Q_scope.

(** X11: on Fractions (exact rational arithmetic) the decision does not
    depend on the unit of the prices nor on the level of the averages.  For
    ask != 0 and k != 0, constructing from
    (k * bid, k * ask) and (ma_s + c, ma_l + c) succeeds and gives the same
    decision as constructing from (bid, ask) and (ma_s, ma_l). *)
Theorem decision_scale_and_shift_invariant
    (ma_s ma_l rsi beta_stock bid_price ask_price k c : Q) :
  ~ ask_price == 0 -> ~ k == 0 ->
  exists a b,
    __init__ ma_s ma_l rsi beta_stock bid_price ask_price = Ok a /\
    __init__ (ma_s + c) (ma_l + c) rsi beta_stock (k * bid_price) (k * ask_price)
      = Ok b /\
    bid_ask_spread b == bid_ask_spread a /\ dcm b == dcm a /\
    fst (block3 b) = fst (block3 a).
Proof.
  intros Nask Nk.
  assert (Nkask : ~ k * ask_price == 0).
  { intro Z. destruct (Qmult_integral _ _ Z); contradiction. }
  rewrite !init_Q, (Qeq_bool_false _ _ Nask), (Qeq_bool_false _ _ Nkask).
  do 2 eexists. split; [reflexivity|]. split; [reflexivity|].
  assert (Es : (k * ask_price - k * bid_price) / (k * ask_price)
               == (ask_price - bid_price) / ask_price) by (field; tauto).
  assert (Ed : ma_s + c - (ma_l + c) == ma_s - ma_l) by ring.
  cbn [bid_ask_spread dcm]. split; [exact Es|]. split; [exact Ed|].
  apply block3_quadruple; cbn; first [assumption | reflexivity].
Qed.

Lemma decision_scale_and_shift_invariant_witness :
  exists a b : StockMarketFuzzyLogic Q,
    __init__ 127.64 107.17 50.64 1.28 131.75 131.78 = Ok a /\
    __init__ (127.64 + 10) (107.17 + 10) 50.64 1.28 (100 * 131.75) (100 * 131.78)
      = Ok b /\
    fst (block3 b) = fst (block3 a).
Proof.
  destruct (decision_scale_and_shift_invariant
              127.64 107.17 50.64 1.28 131.75 131.78 100 10)
    as (a & b & Ia & Ib & _ & _ & E).
  - vm_compute. discriminate.
  - vm_compute. discriminate.
  - exists a, b. conjuncts; assumption.
Defined.

Lemma init_spread (ma_s ma_l rsi beta bid_price ask_price : Q)
    (self : StockMarketFuzzyLogic Q) :
  __init__ ma_s ma_l rsi beta bid_price ask_price = Ok self ->
  ~ ask_price == 0 /\
  bid_ask_spread self * ask_price == ask_price - bid_price /\
  beta_stock self = beta.
Proof.
  rewrite init_Q. destruct (Qeq_bool ask_price 0) eqn:Z; [discriminate|].
  intro I. injection I as <-. cbn.
  assert (N : ~ ask_price == 0)
    by (intro E; apply Qeq_bool_iff in E; congruence).
  split; [exact N|]. split; [field; exact N | reflexivity].
Qed.

(** X12: on Fractions (exact rational arithmetic), with 0 <= bid <= ask and
    ask > 0 the normalised spread of the constructed record lies between 0
    and 1, the range the class documents; it is 0 exactly when bid equals
    ask. *)
Theorem spread_in_unit_interval (ma_s ma_l rsi beta_stock bid_price ask_price : Q) :
  0 <= bid_price -> bid_price <= ask_price -> 0 < ask_price ->
  exists self,
    __init__ ma_s ma_l rsi beta_stock bid_price ask_price = Ok self /\
    0 <= bid_ask_spread self <= 1 /\
    (bid_ask_spread self == 0 <-> bid_price == ask_price).
Proof.
  intros B BA A.
  destruct (__init__ ma_s ma_l rsi beta_stock bid_price ask_price)
    as [self|] eqn:I.
  - exists self. split; [reflexivity|].
    destruct (init_spread _ _ _ _ _ _ _ I) as (_ & S & _).
    split; [split; nra|]. split; intro E; nra.
  - rewrite init_Q, Qeq_bool_false in I; [discriminate | lra].
Qed.

Lemma spread_in_unit_interval_witness :
  exists self : StockMarketFuzzyLogic Q,
    __init__ 127.64 107.17 50.64 1.28 131.75 131.78 = Ok self /\
    0 <= bid_ask_spread self <= 1.
Proof.
  destruct (spread_in_unit_interval 127.64 107.17 50.64 1.28 131.75 131.78)
    as (self & I & R & _).
  - vm_compute. discriminate.
  - vm_compute. discriminate.
  - reflexivity.
  - exists self. split; assumption.
Defined.

(** X13: on Fractions (exact rational arithmetic), validity in terms of the
    quoted prices.  Let d be the double nearest to 0.015.  With a positive ask
    price the constructed record is "not" valid exactly when beta < 1 and
    bid < (1 - d) * ask, and "very" valid exactly when beta > 1 and
    bid >= (1 - d) * ask.  The prices are not validated: with a negative ask
    price the comparison of bid with (1 - d) * ask is reversed. *)
Theorem validity_from_prices (ma_s ma_l rsi beta bid_price ask_price : Q)
    (self : StockMarketFuzzyLogic Q) :
  __init__ ma_s ma_l rsi beta bid_price ask_price = Ok self ->
  (0 < ask_price ->
   (fst (block1 self) = "not"%string <->
    beta < 1 /\ bid_price < (1 - spread_threshold) * ask_price) /\
   (fst (block1 self) = "very"%string <->
    1 < beta /\ (1 - spread_threshold) * ask_price <= bid_price)) /\
  (ask_price < 0 ->
   (fst (block1 self) = "not"%string <->
    beta < 1 /\ (1 - spread_threshold) * ask_price < bid_price) /\
   (fst (block1 self) = "very"%string <->
    1 < beta /\ bid_price <= (1 - spread_threshold) * ask_price)).
Proof.
  intro I. destruct (init_spread _ _ _ _ _ _ _ I) as (_ & S & <-).
  split; intro A; rewrite block1_val; unfold spread_threshold;
    by_thresholds; cbn;
    (split; split;
     [ intro E; first [discriminate E | split; nra]
     | intros (Hb & Hp); first [reflexivity | exfalso; nra]
     | intro E; first [discriminate E | split; nra]
     | intros (Hb & Hp); first [reflexivity | exfalso; nra] ]).
Qed.

Lemma validity_from_prices_witness :
  exists self : StockMarketFuzzyLogic Q,
    __init__ 3 1 80 0.5 90 100 = Ok self /\ fst (block1 self) = "not"%string.
Proof.
  eexists. split; [reflexivity|].
  destruct (validity_from_prices 3 1 80 0.5 90 100 _ eq_refl) as (Positive & _).
  destruct (Positive eq_refl) as ((_ & R) & _).
  apply R. split; reflexivity.
Defined.

(** X14: on Fractions (exact rational arithmetic) a locked or crossed market
    counts as liquid.  With 0 < ask <= bid the spread of the constructed
    record is at most 0, so [block1] never answers "not": it answers "very"
    for beta > 1 and "slight" otherwise. *)
Theorem crossed_market_is_liquid (ma_s ma_l rsi beta bid_price ask_price : Q) :
  0 < ask_price -> ask_price <= bid_price ->
  exists self,
    __init__ ma_s ma_l rsi beta bid_price ask_price = Ok self /\
    bid_ask_spread self <= 0 /\
    fst (block1 self) <> "not"%string /\
    (1 < beta -> fst (block1 self) = "very"%string) /\
    (beta <= 1 -> fst (block1 self) = "slight"%string).
Proof.
  intros A BA.
  destruct (__init__ ma_s ma_l rsi beta bid_price ask_price) as [self|] eqn:I.
  - exists self. split; [reflexivity|].
    destruct (init_spread _ _ _ _ _ _ _ I) as (_ & S & <-).
    assert (L : bid_ask_spread self <= 0) by nra.
    split; [exact L|].
    rewrite block1_val. unfold spread_threshold. by_thresholds; cbn;
      (split; [discriminate || lra|]);
      (split; intro; first [reflexivity | lra]).
  - rewrite init_Q, Qeq_bool_false in I; [discriminate | lra].
Qed.

Lemma crossed_market_is_liquid_witness :
  exists self : StockMarketFuzzyLogic Q,
    __init__ 3 1 80 0.5 100 90 = Ok self /\ fst (block1 self) = "slight"%string.
Proof.
  destruct (crossed_market_is_liquid 3 1 80 0.5 100 90)
    as (self & I & _ & _ & _ & R).
  - reflexivity.
  - vm_compute. discriminate.
  - exists self. split; [assumption|]. apply R. vm_compute. discriminate.
Defined.

(** ** Python floats: NaN, infinities and signed zeros *)

Lemma is_nan_Prim2SF (x : float) : is_nan x = true <-> Prim2SF x = S754_nan.
Proof.
  unfold is_nan. rewrite eqb_spec. unfold SFeqb.
  destruct (Prim2SF x) as [s | s | | s m e]; cbn.
  - destruct s; split; discriminate.
  - destruct s; split; discriminate.
  - split; reflexivity.
  - rewrite Z.compare_refl, Pos.compare_cont_refl. destruct s; split; discriminate.
Qed.

(** Every comparison with a NaN is false. *)
Lemma nan_compare (x y : float) :
  is_nan x = true ->
  PrimFloat.ltb x y = false /\ PrimFloat.ltb y x = false /\
  PrimFloat.leb x y = false /\ PrimFloat.leb y x = false /\
  PrimFloat.eqb x y = false /\ PrimFloat.eqb y x = false.
Proof.
  intro N. apply is_nan_Prim2SF in N.
  rewrite !ltb_spec, !leb_spec, !eqb_spec, N.
  unfold SFltb, SFleb, SFeqb. cbn.
  destruct (Prim2SF y); repeat split; reflexivity.
Qed.

Lemma eqb_zero (y : float) :
  PrimFloat.eqb y PrimFloat.zero = true <->
  y = PrimFloat.zero \/ y = PrimFloat.neg_zero.
Proof.
  split.
  - rewrite eqb_spec. intro E. rewrite <- (SF2Prim_Prim2SF y).
    destruct (Prim2SF y) as [s | s | | s m e]; cbn in E; try discriminate.
    + destruct s; [right | left]; reflexivity.
    + destruct s; discriminate.
    + destruct s; discriminate.
  - intros [-> | ->]; reflexivity.
Qed.

Lemma init_binary64 (ma_s ma_l rsi beta_stock bid_price ask_price : float) :
  __init__ ma_s ma_l rsi beta_stock bid_price ask_price =
    if PrimFloat.eqb ask_price PrimFloat.zero then Raise ZeroDivisionError
    else Ok {| ma_s := ma_s; ma_l := ma_l; rsi := rsi; beta_stock := beta_stock;
               bid_price := bid_price; ask_price := ask_price;
               bid_ask_spread :=
                 PrimFloat.div (PrimFloat.sub ask_price bid_price) ask_price;
               dcm := PrimFloat.sub ma_s ma_l |}.
Proof.
  unfold __init__. cbn. unfold Binary64.float_truediv.
  destruct (PrimFloat.eqb ask_price PrimFloat.zero); reflexivity.
Qed.

(** X15: on doubles, construction raises ZeroDivisionError exactly when the
    ask price is +0.0 or -0.0.  A NaN ask price does not raise: a record is
    constructed. *)
Theorem init_binary64_raises_iff
    (ma_s ma_l rsi beta_stock bid_price ask_price : float) :
  (__init__ ma_s ma_l rsi beta_stock bid_price ask_price = Raise ZeroDivisionError
   <-> ask_price = PrimFloat.zero \/ ask_price = PrimFloat.neg_zero) /\
  (is_nan ask_price = true ->
   exists self, __init__ ma_s ma_l rsi beta_stock bid_price ask_price = Ok self).
Proof.
  rewrite init_binary64. split.
  - rewrite <- eqb_zero.
    destruct (PrimFloat.eqb ask_price PrimFloat.zero); split;
      first [reflexivity | discriminate].
  - intro N. destruct (nan_compare ask_price PrimFloat.zero N)
      as (_ & _ & _ & _ & -> & _).
    eexists. reflexivity.
Qed.

Lemma init_binary64_raises_iff_witness :
  (__init__ 1 1 50 1 1 PrimFloat.neg_zero = Raise ZeroDivisionError)%float /\
  (exists self, __init__ 1 1 50 1 1 PrimFloat.nan = Ok self)%float.
Proof.
  split.
  - apply (proj1 (init_binary64_raises_iff 1 1 50 1 1 PrimFloat.neg_zero)).
    right. reflexivity.
  - apply (proj2 (init_binary64_raises_iff 1 1 50 1 1 PrimFloat.nan)).
    reflexivity.
Defined.

#[local] Set Warnings "-inexact-float".

Lemma block1_binary64 (self : StockMarketFuzzyLogic float) :
  fst (block1 self) =
    if PrimFloat.ltb 1 (beta_stock self) then
      if PrimFloat.ltb 0.015 (bid_ask_spread self)
      then "slight"%string else "very"%string
    else if PrimFloat.ltb (beta_stock self) 1 then
      if PrimFloat.ltb 0.015 (bid_ask_spread self)
      then "not"%string else "slight"%string
    else "slight"%string.
Proof.
  unfold block1, bind, getattr, ret. cbn.
  destruct (PrimFloat.ltb _ (beta_stock self)); [reflexivity|].
  destruct (PrimFloat.ltb (beta_stock self) _); reflexivity.
Qed.

Lemma block2_binary64 (self : StockMarketFuzzyLogic float) :
  fst (block2 self) =
    if PrimFloat.ltb 70 (rsi self) then
      if PrimFloat.ltb (dcm self) 1 then "neutral"%string else "average buy"%string
    else if PrimFloat.ltb 50 (rsi self) then
      if PrimFloat.ltb (dcm self) 1 then "neutral"%string else "strong buy"%string
    else if PrimFloat.leb 30 (rsi self) then
      if PrimFloat.ltb (dcm self) 1 then "strong sell"%string else "neutral"%string
    else
      if PrimFloat.ltb (dcm self) 1 then "average sell"%string else "neutral"%string.
Proof.
  unfold block2, bind, getattr, ret. cbn.
  destruct (PrimFloat.ltb _ (rsi self)); [reflexivity|].
  destruct (PrimFloat.ltb _ (rsi self)); [reflexivity|].
  destruct (PrimFloat.leb _ (rsi self)); reflexivity.
Qed.

Lemma nan_spread_is_liquid (self : StockMarketFuzzyLogic float) :
  is_nan (bid_ask_spread self) = true -> fst (block1 self) <> "not"%string.
Proof.
  intro N. rewrite block1_binary64.
  destruct (nan_compare (bid_ask_spread self) 0.015%float N) as (_ & -> & _).
  destruct (PrimFloat.ltb 1 (beta_stock self)); [discriminate|].
  destruct (PrimFloat.ltb (beta_stock self) 1); discriminate.
Qed.

(** X16: NaN fields never raise and take the fall-back branches.  A NaN beta
    gives validity "slight"; a NaN spread counts as liquid (never "not"); a
    NaN oscillator is handled as oversold ("average sell" if dcm < 1,
    "neutral" otherwise); a NaN dcm counts as a buy signal (never a sell
    tag); with both oscillator and dcm NaN the decision is
    "no confidence trade". *)
Theorem nan_fields_take_fallback_branches (self : StockMarketFuzzyLogic float) :
  (is_nan (beta_stock self) = true -> fst (block1 self) = "slight"%string) /\
  (is_nan (bid_ask_spread self) = true -> fst (block1 self) <> "not"%string) /\
  (is_nan (rsi self) = true ->
   (PrimFloat.ltb (dcm self) 1 = true ->
    fst (block2 self) = "average sell"%string) /\
   (PrimFloat.ltb (dcm self) 1 = false ->
    fst (block2 self) = "neutral"%string)) /\
  (is_nan (dcm self) = true ->
   In (fst (block2 self)) ["neutral"; "average buy"; "strong buy"]%string) /\
  (is_nan (rsi self) = true -> is_nan (dcm self) = true ->
   fst (block3 self) = Some "no confidence trade"%string).
Proof.
  assert (Rsi : is_nan (rsi self) = true ->
          fst (block2 self) =
            if PrimFloat.ltb (dcm self) 1
            then "average sell"%string else "neutral"%string).
  { intro N. rewrite block2_binary64.
    destruct (nan_compare (rsi self) 70%float N) as (_ & -> & _).
    destruct (nan_compare (rsi self) 50%float N) as (_ & -> & _).
    destruct (nan_compare (rsi self) 30%float N) as (_ & _ & _ & -> & _).
    reflexivity. }
  conjuncts.
  - intro N. rewrite block1_binary64.
    destruct (nan_compare (beta_stock self) 1%float N) as (-> & -> & _).
    reflexivity.
  - apply nan_spread_is_liquid.
  - intros N. rewrite (Rsi N). split; intros ->; reflexivity.
  - intro N. rewrite block2_binary64.
    destruct (nan_compare (dcm self) 1%float N) as (-> & _).
    destruct (PrimFloat.ltb 70 (rsi self)); [cbn; tauto|].
    destruct (PrimFloat.ltb 50 (rsi self)); [cbn; tauto|].
    destruct (PrimFloat.leb 30 (rsi self)); cbn; tauto.
  - intros N M. rewrite block3_run. cbn [fst]. rewrite (Rsi N).
    destruct (nan_compare (dcm self) 1%float M) as (-> & _).
    destruct (block1_range self) as [<- | [<- | [<- | []]]]; reflexivity.
Qed.

Lemma nan_fields_take_fallback_branches_witness :
  fst (block3 {| ma_s := PrimFloat.nan; ma_l := PrimFloat.nan;
                 rsi := PrimFloat.nan; beta_stock := PrimFloat.nan;
                 bid_price := PrimFloat.nan; ask_price := PrimFloat.nan;
                 bid_ask_spread := PrimFloat.nan; dcm := PrimFloat.nan |})
  = Some "no confidence trade"%string /\
  fst (block1 {| ma_s := 2; ma_l := 1; rsi := 50; beta_stock := PrimFloat.nan;
                 bid_price := 99; ask_price := 100;
                 bid_ask_spread := 0.5; dcm := 1 |}%float)
  = "slight"%string.
Proof.
  split.
  - refine (proj2 (proj2 (proj2 (proj2
      (nan_fields_take_fallback_branches _)))) _ _); reflexivity.
  - refine (proj1 (nan_fields_take_fallback_branches _) _); reflexivity.
Defined.

Lemma Prim2SF_nan_is_nan (x : float) : Prim2SF x = S754_nan -> is_nan x = true.
Proof. apply is_nan_Prim2SF. Qed.

(** X17: on doubles, a NaN bid or ask price, or an infinite ask price, is
    not rejected: when construction succeeds the spread it stores is NaN, and
    [block1] then treats the stock as liquid and never answers "not". *)
Theorem nan_or_infinite_price_gives_nan_spread
    (ma_s ma_l rsi beta_stock bid_price ask_price : float)
    (self : StockMarketFuzzyLogic float) :
  __init__ ma_s ma_l rsi beta_stock bid_price ask_price = Ok self ->
  is_nan ask_price = true \/ is_nan bid_price = true \/
  ask_price = PrimFloat.infinity \/ ask_price = PrimFloat.neg_infinity ->
  is_nan (bid_ask_spread self) = true /\ fst (block1 self) <> "not"%string.
Proof.
  rewrite init_binary64.
  destruct (PrimFloat.eqb ask_price PrimFloat.zero); [discriminate|].
  intros I P. injection I as <-.
  assert (N : is_nan (PrimFloat.div (PrimFloat.sub ask_price bid_price) ask_price)
              = true).
  { apply Prim2SF_nan_is_nan. rewrite div_spec, sub_spec.
    unfold SF64div, SF64sub, SFdiv, SFsub.
    destruct P as [A | [B | [-> | ->]]].
    - apply is_nan_Prim2SF in A. rewrite A. reflexivity.
    - apply is_nan_Prim2SF in B. rewrite B.
      destruct (Prim2SF ask_price) as [[] | [] | | [] ? ?]; reflexivity.
    - change (Prim2SF PrimFloat.infinity) with (S754_infinity false).
      destruct (Prim2SF bid_price) as [[] | [] | | [] ? ?]; reflexivity.
    - change (Prim2SF PrimFloat.neg_infinity) with (S754_infinity true).
      destruct (Prim2SF bid_price) as [[] | [] | | [] ? ?]; reflexivity. }
  split; [exact N|]. apply nan_spread_is_liquid. exact N.
Qed.

Lemma nan_or_infinite_price_gives_nan_spread_witness :
  exists self : StockMarketFuzzyLogic float,
    (__init__ 2 1 50 0.5 99 PrimFloat.infinity = Ok self)%float /\
    is_nan (bid_ask_spread self) = true /\ fst (block1 self) = "slight"%string.
Proof.
  eexists. split; [reflexivity|].
  split; [|reflexivity].
  refine (proj1 (nan_or_infinite_price_gives_nan_spread
                   2 1 50 0.5 99 PrimFloat.infinity _ eq_refl _)).
  right. right. left. reflexivity.
Defined.

(** * Construction with each kind of argument *)

(** ** [int] arguments *)

Lemma finite_raises (s : spec_float) (e : exn) :
  Binary64.finite s = Raise e -> e = OverflowError.
Proof. destruct s; cbn; congruence. Qed.

Lemma int_truediv_raises (a b : Z) (e : exn) :
  Binary64.int_truediv a b = Raise e ->
  (e = ZeroDivisionError /\ b = 0%Z) \/ (e = OverflowError /\ b <> 0%Z).
Proof.
  unfold Binary64.int_truediv. destruct (Z.eqb_spec b 0) as [-> | N].
  - intro R. injection R as <-. now left.
  - intro R. right. split; [|exact N]. destruct a; [discriminate | |];
      destruct (SFdiv_core_binary _ _ _ _ _ _) as [[mz ez] lz];
      exact (finite_raises _ _ R).
Qed.

Lemma init_int (ma_s ma_l rsi beta_stock bid_price ask_price : Z) :
  __init__ (PyInt ma_s) (PyInt ma_l) (PyInt rsi) (PyInt beta_stock)
           (PyInt bid_price) (PyInt ask_price) =
    bind_result (Binary64.int_truediv (ask_price - bid_price) ask_price)
      (fun quotient =>
       Ok {| ma_s := PyInt ma_s; ma_l := PyInt ma_l; rsi := PyInt rsi;
             beta_stock := PyInt beta_stock;
             bid_price := PyInt bid_price; ask_price := PyInt ask_price;
             bid_ask_spread := PyFloat quotient;
             dcm := PyInt (ma_s - ma_l) |}).
Proof.
  unfold __init__. cbn.
  destruct (Binary64.int_truediv (ask_price - bid_price) ask_price); reflexivity.
Qed.

(** The script gives the same answer when its literals are read by the
    instance for ints and floats. *)
Example main_prints_high_confidence_buy_int_or_float :
  main.printed (T := int_or_float) = Ok (Some "high confidence buy"%string).
Proof. vm_compute. reflexivity. Qed.

(** Quotients of ints are rounded to the nearest double, ties to even, and
    raise when too large; comparisons of ints with doubles are exact. *)
Example int_arithmetic :
  Binary64.int_truediv 2 3 = Ok 0.66666666666666663%float /\
  Binary64.int_truediv 1 (10 ^ 400) = Ok 0%float /\
  Binary64.int_truediv 0 (-5) = Ok (-0)%float /\
  Binary64.int_truediv (10 ^ 400) 1 = Raise OverflowError /\
  Binary64.int_truediv 1 0 = Raise ZeroDivisionError /\
  Binary64.of_int (2 ^ 53 + 1) = Ok 9007199254740992%float /\
  Binary64.of_int (10 ^ 400) = Raise OverflowError /\
  gt (PyInt (2 ^ 53 + 1)) (PyFloat 9007199254740992) = true /\
  gt (PyInt (10 ^ 400)) (PyFloat PrimFloat.infinity) = false /\
  sub (PyFloat 0) (PyInt (10 ^ 400)) = Raise OverflowError /\
  truediv (PyInt (10 ^ 400)) (PyFloat 0) = Raise OverflowError.
Proof. repeat split; vm_compute; reflexivity. Qed.

(** ** Failure of the constructor *)




(** ** The derived fields *)

Lemma init_fields {T : Type} `{Number T}
    (ma_s' ma_l' rsi' beta_stock' bid_price' ask_price' : T)
    (self : StockMarketFuzzyLogic T) :
  __init__ ma_s' ma_l' rsi' beta_stock' bid_price' ask_price' = Ok self ->
  exists difference,
    sub ask_price' bid_price' = Ok difference /\
    truediv difference ask_price' = Ok (bid_ask_spread self) /\
    sub ma_s' ma_l' = Ok (dcm self) /\
    ma_s self = ma_s' /\ ma_l self = ma_l' /\ rsi self = rsi' /\
    beta_stock self = beta_stock' /\ bid_price self = bid_price' /\
    ask_price self = ask_price'.
Proof.
  unfold __init__, bind_result.
  destruct (sub ask_price' bid_price') as [difference|] eqn:S; [|discriminate].
  destruct (truediv difference ask_price') as [spread|] eqn:D; [|discriminate].
  destruct (sub ma_s' ma_l') as [delta|] eqn:M; [|discriminate].
  intro I. injection I as <-. exists difference. cbn.
  split; [reflexivity|]. split; [exact D|]. repeat split.
Qed.

(** C8, as stated, fails on the code: with the int arguments bid = 1 and
    ask = 3 the stored spread is the double 0.6666666666666666, not
    (3 - 1) / 3; and on the floats of [main.py] itself the stored spread is
    not the exact quotient of the stored prices. *)
Lemma init_quotient_is_rounded :
  (exists self f,
     __init__ (PyInt 3) (PyInt 1) (PyInt 50) (PyInt 1) (PyInt 1) (PyInt 3)
       = Ok self /\
     bid_ask_spread self = PyFloat f /\
     ~ Binary64.value f == (3 - 1) / 3) /\
  (exists self : StockMarketFuzzyLogic float,
     main.a = Ok self /\
     ~ Binary64.value (bid_ask_spread self) ==
       (Binary64.value (ask_price self) - Binary64.value (bid_price self))
       / Binary64.value (ask_price self)).
Proof.
  split.
  - do 2 eexists. split; [vm_compute; reflexivity|]. split; [reflexivity|].
    vm_compute. discriminate.
  - eexists. split; [vm_compute; reflexivity|].
    cbn [bid_ask_spread ask_price bid_price]. vm_compute. discriminate.
Qed.

(** C8, amended: whenever construction succeeds, the record holds the six raw
    values together with bid_ask_spread, the result of Python's
    (askPrice - bidPrice) / askPrice on the arguments, and dcm, the result of
    shortMA - longMA, each computed once by the constructor; no rule block
    recomputes or changes them.  On Fractions, for every askPrice != 0, these
    are exactly (askPrice - bidPrice) / askPrice and shortMA - longMA; on
    floats, for every askPrice != 0, they are the rounded IEEE difference and
    quotient. *)
Theorem init_stores_python_results :
  (forall (T : Type) (N : Number T)
          (ma_s' ma_l' rsi' beta_stock' bid_price' ask_price' : T)
          (self : StockMarketFuzzyLogic T),
     __init__ ma_s' ma_l' rsi' beta_stock' bid_price' ask_price' = Ok self ->
     (ma_s self = ma_s' /\ ma_l self = ma_l' /\ rsi self = rsi' /\
      beta_stock self = beta_stock' /\ bid_price self = bid_price' /\
      ask_price self = ask_price') /\
     (exists difference,
        sub ask_price' bid_price' = Ok difference /\
        truediv difference ask_price' = Ok (bid_ask_spread self)) /\
     sub ma_s' ma_l' = Ok (dcm self) /\
     snd (block1 self) = self /\ snd (block2 self) = self /\
     snd (block3 self) = self) /\
  (forall ma_s' ma_l' rsi' beta_stock' bid_price' ask_price' : Q,
     ~ ask_price' == 0 ->
     exists self,
       __init__ ma_s' ma_l' rsi' beta_stock' bid_price' ask_price' = Ok self /\
       bid_ask_spread self = (ask_price' - bid_price') / ask_price' /\
       dcm self = ma_s' - ma_l') /\
  (forall ma_s' ma_l' rsi' beta_stock' bid_price' ask_price' : float,
     PrimFloat.eqb ask_price' PrimFloat.zero = false ->
     exists self,
       __init__ ma_s' ma_l' rsi' beta_stock' bid_price' ask_price' = Ok self /\
       bid_ask_spread self
         = PrimFloat.div (PrimFloat.sub ask_price' bid_price') ask_price' /\
       dcm self = PrimFloat.sub ma_s' ma_l').
Proof.
  split; [|split].
  - intros T N m l r beta bid ask self I.
    destruct (init_fields _ _ _ _ _ _ _ I)
      as (difference & S & D & M & F1 & F2 & F3 & F4 & F5 & F6).
    split; [repeat split; assumption|].
    split; [exists difference; split; assumption|].
    split; [assumption|].
    rewrite block1_pure, block2_pure, block3_pure. repeat split.
  - intros m l r beta bid ask N. rewrite init_Q, (Qeq_bool_false _ _ N).
    eexists. split; [reflexivity|]. split; reflexivity.
  - intros m l r beta bid ask N. rewrite init_binary64, N.
    eexists. split; [reflexivity|]. split; reflexivity.
Qed.

Lemma init_stores_python_results_witness :
  (exists self,
     __init__ (PyInt 3) (PyInt 1) (PyInt 50) (PyInt 1) (PyInt 1) (PyInt 3)
       = Ok self /\
     truediv (PyInt 2) (PyInt 3) = Ok (bid_ask_spread self) /\
     dcm self = PyInt 2) /\
  (exists self : StockMarketFuzzyLogic Q,
     __init__ 127.64 107.17 50.64 1.28 131.75 131.78 = Ok self /\
     bid_ask_spread self = (131.78 - 131.75) / 131.78 /\
     dcm self = 127.64 - 107.17) /\
  (exists self : StockMarketFuzzyLogic float,
     main.a = Ok self /\
     bid_ask_spread self
       = PrimFloat.div (PrimFloat.sub main.ask main.bid) main.ask).
Proof.
  destruct init_stores_python_results as (Any & Fractions & Floats).
  conjuncts.
  - eexists. split; [vm_compute; reflexivity|].
    match goal with
    | |- _ = Ok (bid_ask_spread ?self) /\ _ =>
      destruct (Any int_or_float _ (PyInt 3) (PyInt 1) (PyInt 50) (PyInt 1)
                    (PyInt 1) (PyInt 3) self)
        as (_ & (difference & S & D) & M & _)
    end.
    + vm_compute. reflexivity.
    + injection S as <-. split; [exact D | reflexivity].
  - destruct (Fractions 127.64 107.17 50.64 1.28 131.75 131.78)
      as (self & I & S & D).
    + vm_compute. discriminate.
    + exists self. conjuncts; assumption.
  - destruct (Floats main.mat_50 main.mat_200 main.rsi main.beta main.bid main.ask)
      as (self & I & S & _).
    + vm_compute. reflexivity.
    + exists self. split; assumption.
Defined.

(** ** The full chain *)

(** C5, as stated, fails on the code: with int arguments the ask price 1 is
    not zero, yet (1 + 10^400) / 1 is too large for a double, construction
    raises OverflowError and no decision is returned. *)
Lemma evaluate_overflows_on_ints :
  (1 <> 0)%Z /\
  bind_result
    (__init__ (PyInt 2) (PyInt 1) (PyInt 60) (PyInt 2)
              (PyInt (- 10 ^ 400)) (PyInt 1))
    (fun self => Ok (fst (block3 self)))
  = Raise OverflowError.
Proof. split; [discriminate | vm_compute; reflexivity]. Qed.

(** C5, amended: whenever construction succeeds, [block3] on the record
    returns one of the seven decision strings; the fall-through of its nested
    conditional ([None]) is not reached, as [block1] only returns "very",
    "slight" or "not" and [block2] only one of the five strength tags.
    Construction succeeds for every six Fractions and for every six floats
    with askPrice != 0; for six ints with askPrice != 0 it succeeds or raises
    OverflowError. *)
Theorem constructed_record_gets_decision :
  (forall (T : Type) (N : Number T)
          (ma_s ma_l rsi beta_stock bid_price ask_price : T)
          (self : StockMarketFuzzyLogic T),
     __init__ ma_s ma_l rsi beta_stock bid_price ask_price = Ok self ->
     In (fst (block1 self)) validities /\
     In (fst (block2 self)) strengths /\
     exists decision,
       fst (block3 self) = Some decision /\ In decision decisions) /\
  (forall ma_s ma_l rsi beta_stock bid_price ask_price : Q,
     ~ ask_price == 0 ->
     exists self decision,
       __init__ ma_s ma_l rsi beta_stock bid_price ask_price = Ok self /\
       fst (block3 self) = Some decision /\ In decision decisions) /\
  (forall ma_s ma_l rsi beta_stock bid_price ask_price : float,
     PrimFloat.eqb ask_price PrimFloat.zero = false ->
     exists self decision,
       __init__ ma_s ma_l rsi beta_stock bid_price ask_price = Ok self /\
       fst (block3 self) = Some decision /\ In decision decisions) /\
  (forall ma_s ma_l rsi beta_stock bid_price ask_price : Z,
     let construct :=
       __init__ (PyInt ma_s) (PyInt ma_l) (PyInt rsi) (PyInt beta_stock)
                (PyInt bid_price) (PyInt ask_price) in
     ask_price <> 0%Z ->
     construct = Raise OverflowError \/
     exists self decision,
       construct = Ok self /\
       fst (block3 self) = Some decision /\ In decision decisions).
Proof.
  assert (Decides : forall (T : Type) (N : Number T) (self : StockMarketFuzzyLogic T),
            exists decision,
              fst (block3 self) = Some decision /\ In decision decisions).
  { intros T N self. rewrite block3_run. cbn [fst].
    apply block3_rules_range; [apply block1_range | apply block2_range]. }
  split; [|split; [|split]].
  - intros T N m l r beta bid ask self _.
    split; [apply block1_range|]. split; [apply block2_range|]. apply Decides.
  - intros m l r beta bid ask N. rewrite init_Q, (Qeq_bool_false _ _ N).
    eexists. destruct (Decides Q _ {| ma_s := m; ma_l := l; rsi := r;
      beta_stock := beta; bid_price := bid; ask_price := ask;
      bid_ask_spread := (ask - bid) / ask; dcm := m - l |}) as (decision & D).
    exists decision. split; [reflexivity | exact D].
  - intros m l r beta bid ask N. rewrite init_binary64, N.
    eexists. destruct (Decides float _ {| ma_s := m; ma_l := l; rsi := r;
      beta_stock := beta; bid_price := bid; ask_price := ask;
      bid_ask_spread := PrimFloat.div (PrimFloat.sub ask bid) ask;
      dcm := PrimFloat.sub m l |}) as (decision & D).
    exists decision. split; [reflexivity | exact D].
  - intros m l r beta bid ask construct N. subst construct. rewrite init_int.
    destruct (Binary64.int_truediv (ask - bid) ask) as [quotient | e] eqn:Q;
      cbn [bind_result].
    + right. eexists.
      destruct (Decides int_or_float _ {| ma_s := PyInt m; ma_l := PyInt l;
        rsi := PyInt r; beta_stock := PyInt beta; bid_price := PyInt bid;
        ask_price := PyInt ask; bid_ask_spread := PyFloat quotient;
        dcm := PyInt (m - l) |}) as (decision & D).
      exists decision. split; [reflexivity | exact D].
    + left. destruct (int_truediv_raises _ _ _ Q) as [[_ Z] | [-> _]];
        [contradiction | reflexivity].
Qed.

Lemma constructed_record_gets_decision_witness :
  (exists self decision,
     __init__ (PyInt 2) (PyInt 1) (PyInt 60) (PyInt 2) (PyInt 99) (PyInt 100)
       = Ok self /\
     fst (block3 self) = Some decision /\ In decision decisions) /\
  (exists (self : StockMarketFuzzyLogic Q) decision,
     __init__ 3 1 80 0.5 90 100 = Ok self /\
     fst (block3 self) = Some decision /\ In decision decisions) /\
  (exists (self : StockMarketFuzzyLogic float) decision,
     main.a = Ok self /\
     fst (block3 self) = Some decision /\ In decision decisions) /\
  (__init__ (PyInt 3) (PyInt 1) (PyInt 80) (PyInt 0) (PyInt 90) (PyInt 100)
     = Raise OverflowError \/
   exists self decision,
     __init__ (PyInt 3) (PyInt 1) (PyInt 80) (PyInt 0) (PyInt 90) (PyInt 100)
       = Ok self /\
     fst (block3 self) = Some decision /\ In decision decisions).
Proof.
  destruct constructed_record_gets_decision as (Any & Fractions & Floats & Ints).
  conjuncts.
  - eexists.
    assert (I : __init__ (PyInt 2) (PyInt 1) (PyInt 60) (PyInt 2)
                  (PyInt 99) (PyInt 100) = Ok _) by (vm_compute; reflexivity).
    destruct (Any _ _ _ _ _ _ _ _ _ I) as (_ & _ & decision & D).
    exists decision. split; [exact I | exact D].
  - apply (Fractions 3 1 80 0.5 90 100). vm_compute. discriminate.
  - apply (Floats main.mat_50 main.mat_200 main.rsi main.beta main.bid main.ask).
    vm_compute. reflexivity.
  - apply (Ints 3 1 80 0 90 100)%Z. discriminate.
Defined.

(** ** Stage 1 with the literal 0.015 *)





